(** * ACIS Trading Python SDK: request shaping and response classification

    A shallow embedding of [acis_trading/client.py] and
    [acis_trading/exceptions.py].  Python values are an inductive type,
    dictionaries are finite maps, and the one effect of the client (a
    blocking call through a [requests.Session]) is threaded through a small
    state-and-exception monad whose state records every call made to the
    session. *)

From Stdlib Require Import ZArith String Ascii List Floats.
From stdpp Require Import base option list gmap strings pretty.

Local Open Scope string_scope.
Local Open Scope Z_scope.

(** ** Python values *)

Module py.

(** The values that [json.loads] produces and [json.dumps] accepts; JSON
    [null] is Python [None]. *)
#[warnings="-register-all"]
Inductive value : Type :=
| PyNone
| PyBool (b : bool)
| PyInt (n : Z)
| PyFloat (f : float)
| PyStr (s : string)
| PyList (l : list value)
| PyDict (d : gmap string value).

(** [bool(v)]: what [if v:] and [not v] test. *)
Definition truthy (v : value) : bool :=
  match v with
  | PyNone => false
  | PyBool b => b
  | PyInt n => negb (n =? 0)
  | PyFloat f => negb (PrimFloat.eqb f 0%float)
  | PyStr s => negb (String.length s =? 0)%nat
  | PyList l => negb (List.length l =? 0)%nat
  | PyDict d => negb (size d =? 0)%nat
  end.

(** [type(v).__name__] *)
Definition type_name (v : value) : string :=
  match v with
  | PyNone => "NoneType"
  | PyBool _ => "bool"
  | PyInt _ => "int"
  | PyFloat _ => "float"
  | PyStr _ => "str"
  | PyList _ => "list"
  | PyDict _ => "dict"
  end.

(** [str(n)] for an [int], as an f-string formats it. *)
Definition str_of_int (n : Z) : string := pretty n.

(** [d.get(key, default)] on a dictionary. *)
Definition dict_get (d : gmap string value) (key : string) (dflt : value) : value :=
  default dflt (d !! key).

(** [c in chars] *)
Fixpoint char_in (c : ascii) (chars : string) : bool :=
  match chars with
  | EmptyString => false
  | String a rest => if Ascii.eqb c a then true else char_in c rest
  end.

(** [s.rstrip(chars)]: drops the longest suffix of [s] made of characters
    of [chars]. *)
Fixpoint rstrip (chars s : string) : string :=
  match s with
  | EmptyString => EmptyString
  | String a s' =>
      match rstrip chars s' with
      | EmptyString => if char_in a chars then EmptyString else String a EmptyString
      | r => String a r
      end
  end.

(** [s.endswith(suffix)] for a one-character suffix. *)
Fixpoint endswith_char (s : string) (c : ascii) : bool :=
  match s with
  | EmptyString => false
  | String a EmptyString => Ascii.eqb a c
  | String _ s' => endswith_char s' c
  end.

(** [x or y] where [x] is a [str] or [None]. *)
Definition str_or (x : option string) (y : string) : string :=
  match x with
  | Some s => if (String.length s =? 0)%nat then y else s
  | None => y
  end.

(** ["/" * n] *)
Fixpoint str_repeat (c : ascii) (n : nat) : string :=
  match n with
  | O => EmptyString
  | S n' => String c (str_repeat c n')
  end.

End py.

(** ** exceptions.py *)

Module exceptions.

(** The subclasses of [ACISError].  Only [RateLimitError] adds an
    attribute, [reset_at]. *)
Inductive ErrorClass : Type :=
| Authentication
| RateLimit (reset_at : py.value)
| Validation
| API.

(** [ACISError.__init__(message, status_code=None, response=None)]: every
    subclass shares the three attributes. *)
Record ACISError : Type := mkACISError {
  cls : ErrorClass;
  message : py.value;
  status_code : py.value;
  response : py.value
}.

Definition AuthenticationError (message status_code response : py.value) : ACISError :=
  mkACISError Authentication message status_code response.

(** [RateLimitError.__init__(message, reset_at=None, **kwargs)] *)
Definition RateLimitError (message reset_at status_code response : py.value) : ACISError :=
  mkACISError (RateLimit reset_at) message status_code response.

Definition ValidationError (message status_code response : py.value) : ACISError :=
  mkACISError Validation message status_code response.

Definition APIError (message status_code response : py.value) : ACISError :=
  mkACISError API message status_code response.

End exceptions.

(** ** The [requests] library, as far as the client sees it *)

Module requests.

(** [requests.exceptions]: the classes a [Session.request] call raises.
    [ConnectTimeout] inherits from both [ConnectionError] and [Timeout]. *)
Inductive RequestException : Type :=
| Timeout
| ConnectTimeout
| ReadTimeout
| ConnectionError
| ProxyError
| SSLError
| OtherError (name : string).

(** [isinstance(e, requests.exceptions.Timeout)] *)
Definition is_Timeout (e : RequestException) : bool :=
  match e with
  | Timeout | ConnectTimeout | ReadTimeout => true
  | _ => false
  end.

(** [isinstance(e, requests.exceptions.ConnectionError)] *)
Definition is_ConnectionError (e : RequestException) : bool :=
  match e with
  | ConnectionError | ProxyError | SSLError | ConnectTimeout => true
  | _ => false
  end.

(** The ways [response.json()] ends: with the decoded value, with the
    [ValueError] the decoder raises for text that is not JSON, or with the
    [RecursionError] it raises for text nested too deeply. *)
Inductive Decoding : Type :=
| Decoded (v : py.value)
| ValueError
| RecursionError.

(** A [requests.Response]: [json] is the outcome of [response.json()]. *)
Record Response : Type := mkResponse {
  status_code : Z;
  text : string;
  json : Decoding
}.

(** The arguments of one [Session.request] call, with the headers the
    session holds when it is made.  What the library does with them (it may
    follow redirects, or take the authorization from a netrc file) stays
    inside the library. *)
Record Request : Type := mkRequest {
  req_method : string;
  req_url : string;
  req_params : option (gmap string py.value);
  req_json : option (gmap string py.value);
  req_timeout : Z;
  req_headers : gmap string string
}.

Inductive Reply : Type :=
| Respond (r : Response)
| Fail (e : RequestException).

(** The world outside the client: the headers a fresh session starts
    with, how a [Session.request] call ends (with the final response or
    with an exception; this may depend on the earlier calls), and the log
    of the calls made so far. *)
Record World : Type := mkWorld {
  default_headers : gmap string string;
  network : list Request -> Request -> Reply;
  sent : list Request
}.

(** [requests.Session]: the client only touches its headers. *)
Record Session : Type := mkSession {
  headers : gmap string string
}.

End requests.

(** ** Exceptions, results and the effect monad *)

Inductive exception : Type :=
| ACIS (e : exceptions.ACISError)
| Requests (e : requests.RequestException)
| AttributeError (type_name attr : string)
| RecursionError.

Inductive result (A : Type) : Type :=
| Return (a : A)
| Raise (e : exception).

Arguments Return {A} a.
Arguments Raise {A} e.

Definition result_bind {A B : Type} (r : result A) (k : A -> result B) : result B :=
  match r with
  | Return a => k a
  | Raise e => Raise e
  end.

#[global] Instance result_ret : MRet result := fun A a => Return a.
#[global] Instance result_mbind : MBind result := fun A B k r => result_bind r k.

(** Computations that may issue requests and may raise. *)
Definition M (A : Type) : Type := requests.World -> result A * requests.World.

Definition M_bind {A B : Type} (m : M A) (k : A -> M B) : M B :=
  fun w =>
    match m w with
    | (Return a, w') => k a w'
    | (Raise e, w') => (Raise e, w')
    end.

#[global] Instance M_ret : MRet M := fun A a w => (Return a, w).
#[global] Instance M_mbind : MBind M := fun A B k m => M_bind m k.

Definition raise {A : Type} (e : exception) : M A := fun w => (Raise e, w).

Definition lift {A : Type} (r : result A) : M A := fun w => (r, w).

(** [try: m  except ...: handler]: [handler e] is [None] when no clause
    matches [e], which then propagates. *)
Definition try_except {A : Type} (m : M A) (handler : exception -> option (M A)) : M A :=
  fun w =>
    match m w with
    | (Return a, w') => (Return a, w')
    | (Raise e, w') =>
        match handler e with
        | Some h => h w'
        | None => (Raise e, w')
        end
    end.

Definition isinstance_Timeout (e : exception) : bool :=
  match e with
  | Requests e' => requests.is_Timeout e'
  | _ => false
  end.

Definition isinstance_ConnectionError (e : exception) : bool :=
  match e with
  | Requests e' => requests.is_ConnectionError e'
  | _ => false
  end.

(** [v.get(key, default)]: only a [dict] has the method. *)
Definition get (v : py.value) (key : string) (dflt : py.value) : result py.value :=
  match v with
  | py.PyDict d => Return (py.dict_get d key dflt)
  | _ => Raise (AttributeError (py.type_name v) "get")
  end.

(** [requests.Session()] *)
Definition Session_new : M requests.Session :=
  fun w => (Return (requests.mkSession (requests.default_headers w)), w).

(** [session.headers.update(new)] *)
Definition headers_update (new : gmap string string) (s : requests.Session) : requests.Session :=
  requests.mkSession (new ∪ requests.headers s).

(** [session.request(method=, url=, params=, json=, timeout=)]: the call
    is logged and the world decides how it ends. *)
Definition Session_request (s : requests.Session) (method url : string)
    (params json : option (gmap string py.value)) (timeout : Z) : M requests.Response :=
  fun w =>
    let rq := requests.mkRequest method url params json timeout (requests.headers s) in
    let w' := requests.mkWorld (requests.default_headers w) (requests.network w)
                (requests.sent w ++ [rq]) in
    match requests.network w (requests.sent w) rq with
    | requests.Respond r => (Return r, w')
    | requests.Fail e => (Raise (Requests e), w')
    end.

(** ** client.py *)

Module client.

Import py exceptions.

(** [@dataclass Position]: the four optional fields default to [None]. *)
Module Position.

Record t : Type := mk {
  ticker : value;
  weight : value;
  shares : value;
  price : value;
  sector : value;
  ml_score : value
}.

(** [Position(ticker, weight)], every optional field left out. *)
Definition new (ticker weight : value) : t :=
  mk ticker weight PyNone PyNone PyNone PyNone.

Definition to_dict (self : t) : gmap string value :=
  <["ticker" := ticker self]>
    (<["weight" := weight self]>
      (<["shares" := shares self]>
        (<["price" := price self]>
          (<["sector" := sector self]>
            (<["ml_score" := ml_score self]> ∅))))).

End Position.

(** [@dataclass RebalanceSuggestion]: a plain record, no methods. *)
Module RebalanceSuggestion.

Record t : Type := mk {
  ticker : value;
  action : value;
  current_weight : value;
  target_weight : value;
  weight_change : value;
  shares_to_trade : value;
  reason : value
}.

Definition new (ticker action current_weight target_weight weight_change : value) : t :=
  mk ticker action current_weight target_weight weight_change PyNone PyNone.

End RebalanceSuggestion.

Record ACISClient : Type := mkACISClient {
  api_key : string;
  base_url : string;
  timeout : Z;
  _session : requests.Session
}.

Definition DEFAULT_BASE_URL : string := "https://acis-trading.com/api/v1".

Definition default_timeout : Z := 30.

(** [ACISClient.__init__(api_key, base_url=None, timeout=30)].  [None] for
    [api_key] or [base_url] is Python's [None]. *)
Definition __init__ (api_key : option string) (base_url : option string) (timeout : Z)
    : M ACISClient :=
  match api_key with
  | None => raise (ACIS (AuthenticationError (PyStr "API key is required") PyNone PyNone))
  | Some key =>
      if (String.length key =? 0)%nat
      then raise (ACIS (AuthenticationError (PyStr "API key is required") PyNone PyNone))
      else
        let url := rstrip "/" (str_or base_url DEFAULT_BASE_URL) in
        session ← Session_new;
        let session :=
          headers_update
            (<["Authorization" := "Bearer " +:+ key]>
             (<["Content-Type" := "application/json"]>
              (<["User-Agent" := "acis-python-sdk/1.0.0"]> ∅)))
            session in
        mret (mkACISClient key url timeout session)
  end.

(** [_handle_response]: decode, then classify by status code. *)
Definition _handle_response (response : requests.Response) : result value :=
  data ←
    match requests.json response with
    | requests.Decoded v => Return v
    | requests.ValueError =>
        Return (PyDict {[ "detail" := PyStr (requests.text response) ]})
    | requests.RecursionError => Raise RecursionError
    end;
  let status := requests.status_code response in
  if status =? 200 then Return data
  else if status =? 401 then
    msg ← get data "detail" (PyStr "Invalid API key");
    Raise (ACIS (AuthenticationError msg (PyInt 401) data))
  else if status =? 429 then
    msg ← get data "detail" (PyStr "Rate limit exceeded");
    reset ← get data "reset_at" PyNone;
    Raise (ACIS (RateLimitError msg reset (PyInt 429) data))
  else if status =? 422 then
    msg ← get data "detail" (PyStr "Validation error");
    Raise (ACIS (ValidationError msg (PyInt 422) data))
  else
    msg ← get data "detail" (PyStr ("API error: " +:+ str_of_int status));
    Raise (ACIS (APIError msg (PyInt status) data)).

(** The URL [_request] builds: [f"{self.base_url}{endpoint}"]. *)
Definition request_url (self : ACISClient) (endpoint : string) : string :=
  base_url self +:+ endpoint.

(** [_request(method, endpoint, params=None, json=None)] *)
Definition _request (self : ACISClient) (method endpoint : string)
    (params json : option (gmap string value)) : M value :=
  let url := request_url self endpoint in
  response ←
    try_except
      (Session_request (_session self) method url params json (timeout self))
      (fun e =>
         if isinstance_Timeout e
         then Some (raise (ACIS (APIError (PyStr "Request timed out") (PyInt 408) PyNone)))
         else if isinstance_ConnectionError e
         then Some (raise (ACIS (APIError (PyStr "Connection failed") (PyInt 503) PyNone)))
         else None);
  lift (_handle_response response).

(** Defaults of [generate_portfolio]'s keyword parameters. *)
Definition default_max_positions : value := PyInt 20.
Definition default_risk_tolerance : value := PyStr "moderate".
Definition default_investment_amount : value := PyNone.

(** The body [generate_portfolio] assembles before it calls [_request]. *)
Definition generate_portfolio_payload
    (strategy max_positions risk_tolerance investment_amount : value) : gmap string value :=
  let payload : gmap string value :=
    <["strategy" := strategy]>
      (<["max_positions" := max_positions]>
        (<["risk_tolerance" := risk_tolerance]> ∅)) in
  if truthy investment_amount
  then <["investment_amount" := investment_amount]> payload
  else payload.

Definition generate_portfolio (self : ACISClient)
    (strategy max_positions risk_tolerance investment_amount : value) : M value :=
  _request self "POST" "/portfolios/generate" None
    (Some (generate_portfolio_payload strategy max_positions risk_tolerance investment_amount)).

Definition default_market_cap : value := PyStr "large".

Definition get_rebalance_suggestions (self : ACISClient)
    (current_positions strategy market_cap rebalance_threshold : value) : M value :=
  let payload : gmap string value :=
    <["current_positions" := current_positions]>
      (<["strategy" := strategy]>
        (<["market_cap" := market_cap]>
          (<["rebalance_threshold" := rebalance_threshold]> ∅))) in
  _request self "POST" "/portfolios/rebalance" None (Some payload).

Definition get_usage (self : ACISClient) : M value :=
  _request self "GET" "/usage" None None.

Definition health_check (self : ACISClient) : M value :=
  _request self "GET" "/health" None None.

Definition get_risk_levels (self : ACISClient) : M value :=
  _request self "GET" "/risk-levels" None None.

Definition get_my_portfolios (self : ACISClient) : M value :=
  _request self "GET" "/user/portfolios" None None.

Definition get_portfolio (self : ACISClient) (strategy : string) : M value :=
  _request self "GET" ("/user/portfolios/" +:+ strategy) None None.

Definition get_portfolio_history (self : ACISClient) (strategy : string) (days : value)
    : M value :=
  _request self "GET" ("/user/portfolios/" +:+ strategy +:+ "/history")
    (Some {[ "days" := days ]}) None.

(** Convenience methods: each passes [strategy] and [max_positions] by
    keyword and leaves the other two parameters at their defaults. *)
Definition get_value_portfolio (self : ACISClient) (max_positions : value) : M value :=
  generate_portfolio self (PyStr "value") max_positions
    default_risk_tolerance default_investment_amount.

Definition get_growth_portfolio (self : ACISClient) (max_positions : value) : M value :=
  generate_portfolio self (PyStr "growth") max_positions
    default_risk_tolerance default_investment_amount.

Definition get_dividend_portfolio (self : ACISClient) (max_positions : value) : M value :=
  generate_portfolio self (PyStr "dividend") max_positions
    default_risk_tolerance default_investment_amount.

Definition get_adaptive_portfolio (self : ACISClient) (max_positions : value) : M value :=
  generate_portfolio self (PyStr "adaptive") max_positions
    default_risk_tolerance default_investment_amount.

End client.

(** ** Reference definitions for the statements below *)

Import py exceptions client.

(** The call [_request] makes to the session. *)
Definition session_call (self : ACISClient) (method endpoint : string)
    (params json : option (gmap string value)) : requests.Request :=
  requests.mkRequest method (request_url self endpoint) params json
    (timeout self) (requests.headers (_session self)).

(** The world once the call [rq] has been made. *)
Definition after_send (w : requests.World) (rq : requests.Request) : requests.World :=
  requests.mkWorld (requests.default_headers w) (requests.network w)
    (requests.sent w ++ [rq]).

(** The error class the decision table names for a non-200 status; the
    reset hint of a 429 is the body's [reset_at] entry, [None] without one. *)
Definition table_class (status : Z) (body : gmap string value) : ErrorClass :=
  if status =? 401 then Authentication
  else if status =? 429 then RateLimit (dict_get body "reset_at" PyNone)
  else if status =? 422 then Validation
  else API.

(** The message the decision table falls back to. *)
Definition table_default_message (status : Z) : value :=
  if status =? 401 then PyStr "Invalid API key"
  else if status =? 429 then PyStr "Rate limit exceeded"
  else if status =? 422 then PyStr "Validation error"
  else PyStr ("API error: " +:+ str_of_int status).

(** The body synthesized for a response that is not JSON. *)
Definition synthesized_body (response : requests.Response) : gmap string value :=
  {[ "detail" := PyStr (requests.text response) ]}.

(** The value [data] holds once the decoding attempt is over, if the
    attempt gets that far. *)
Definition decoded_body (response : requests.Response) : option value :=
  match requests.json response with
  | requests.Decoded v => Some v
  | requests.ValueError => Some (PyDict (synthesized_body response))
  | requests.RecursionError => None
  end.

(** The error the decision table prescribes for a non-200 status and an
    object body. *)
Definition table_error (status : Z) (body : gmap string value) : exception :=
  ACIS (mkACISError (table_class status body)
          (dict_get body "detail" (table_default_message status))
          (PyInt status) (PyDict body)).

(** Removing exactly one trailing slash, if there is one. *)
Fixpoint strip_one_slash (s : string) : string :=
  match s with
  | EmptyString => EmptyString
  | String a EmptyString => if Ascii.eqb a "/" then EmptyString else s
  | String a s' => String a (strip_one_slash s')
  end.

(** The three headers every client sets, for the key [key]. *)
Definition client_headers (key : string) : gmap string string :=
  <["Authorization" := "Bearer " +:+ key]>
    (<["Content-Type" := "application/json"]>
      (<["User-Agent" := "acis-python-sdk/1.0.0"]> ∅)).

(** A world in which every call ends in [reply]; no call made yet. *)
Definition constant_world (reply : requests.Reply) : requests.World :=
  requests.mkWorld ∅ (fun _ _ => reply) [].

Definition healthy_world : requests.World :=
  constant_world
    (requests.Respond
       (requests.mkResponse 200 "{}" (requests.Decoded (PyDict ∅)))).

(** The errors [_request] raises for the two transport failures it catches. *)
Definition timeout_error : exception :=
  ACIS (APIError (PyStr "Request timed out") (PyInt 408) PyNone).

Definition connection_error : exception :=
  ACIS (APIError (PyStr "Connection failed") (PyInt 503) PyNone).

(** The body of a portfolio request that names only a strategy and a
    number of positions. *)
Definition wrapper_body (strategy : string) (max_positions : value) : gmap string value :=
  <["strategy" := PyStr strategy]>
    (<["max_positions" := max_positions]>
      (<["risk_tolerance" := PyStr "moderate"]> ∅)).

(** The call a POST to [/portfolios/generate] with body [body] makes. *)
Definition portfolio_post (self : ACISClient) (body : gmap string value) : requests.Request :=
  session_call self "POST" "/portfolios/generate" None (Some body).

(** What [__init__] raises without a credential. *)
Definition missing_key_error : exception :=
  ACIS (AuthenticationError (PyStr "API key is required") PyNone PyNone).

(** * Properties *)

(** ** Strings: [rstrip("/")] *)

Section Rstrip.

Lemma char_in_slash (a : ascii) : char_in a "/" = Ascii.eqb a "/".
Proof. unfold char_in. now destruct (Ascii.eqb a "/"). Qed.

Lemma rstrip_cons (a : ascii) (s : string) :
  rstrip "/" (String a s) =
    match rstrip "/" s with
    | EmptyString => if Ascii.eqb a "/" then EmptyString else String a EmptyString
    | r => String a r
    end.
Proof.
  change (rstrip "/" (String a s)) with
    (match rstrip "/" s with
     | EmptyString => if char_in a "/" then EmptyString else String a EmptyString
     | r => String a r
     end).
  now rewrite char_in_slash.
Qed.

(** A string without a trailing "/" is left alone. *)
Lemma rstrip_no_trailing (s : string) :
  endswith_char s "/" = false -> rstrip "/" s = s.
Proof.
  induction s as [|a s IH]; [reflexivity|].
  intros H. rewrite rstrip_cons.
  destruct s as [|b s'].
  - simpl in *. now rewrite H.
  - rewrite IH by exact H. reflexivity.
Qed.

(** The result never ends in a slash. *)
Lemma rstrip_endswith (s : string) : endswith_char (rstrip "/" s) "/" = false.
Proof.
  induction s as [|a s IH]; [reflexivity|].
  rewrite rstrip_cons.
  destruct (rstrip "/" s) as [|b r] eqn:E.
  - destruct (Ascii.eqb a "/") eqn:Ea; simpl; [reflexivity | exact Ea].
  - exact IH.
Qed.

(** What is dropped is a run of slashes. *)
Lemma rstrip_decompose (s : string) :
  exists n : nat, s = rstrip "/" s +:+ str_repeat "/" n.
Proof.
  induction s as [|a s [n IH]].
  - now exists O.
  - rewrite rstrip_cons.
    destruct (rstrip "/" s) as [|b r] eqn:E.
    + destruct (Ascii.eqb_spec a "/") as [->|Hne].
      * exists (S n). simpl in *. now rewrite IH at 1.
      * exists n. simpl in *. now rewrite IH at 1.
    + exists n. simpl in *. now rewrite IH at 1.
Qed.

(** One more trailing "/" changes nothing. *)
Lemma rstrip_app_slash (s : string) : rstrip "/" (s +:+ "/") = rstrip "/" s.
Proof.
  induction s as [|a s IH]; [reflexivity|].
  change (String a s +:+ "/") with (String a (s +:+ "/")).
  now rewrite !rstrip_cons, IH.
Qed.

Lemma str_or_nonempty (u d : string) : u <> "" -> str_or (Some u) d = u.
Proof. destruct u; [congruence | reflexivity]. Qed.

Lemma app_slash_nonempty (u : string) : u +:+ "/" <> "".
Proof. destruct u; discriminate. Qed.

End Rstrip.

(** ** Construction *)

Section Construction.

Variables (base_url : option string) (timeout : Z) (w : requests.World).

Lemma init_missing_key (api_key : option string) :
  api_key = None \/ api_key = Some "" ->
  __init__ api_key base_url timeout w = (Raise missing_key_error, w).
Proof. intros [-> | ->]; reflexivity. Qed.

Lemma init_ok (key : string) :
  key <> "" ->
  __init__ (Some key) base_url timeout w =
    (Return (mkACISClient key (rstrip "/" (str_or base_url DEFAULT_BASE_URL)) timeout
               (requests.mkSession (client_headers key ∪ requests.default_headers w))),
     w).
Proof. destruct key; [congruence | reflexivity]. Qed.

End Construction.

(** C4.  Constructing a client with an absent ([None]) or empty API key
    raises the Authentication error and leaves the world untouched: no
    request is issued and no client (headers, session, base URL) comes into
    being.  With a non-empty key construction returns a client, again
    without issuing any request. *)
Theorem init_checks_api_key
    (api_key base_url : option string) (timeout : Z) (w : requests.World) :
  (api_key = None \/ api_key = Some "" ->
     __init__ api_key base_url timeout w = (Raise missing_key_error, w))
  /\
  (forall key : string, api_key = Some key -> key <> "" ->
     exists c : ACISClient,
       __init__ api_key base_url timeout w = (Return c, w)
       /\ requests.sent (snd (__init__ api_key base_url timeout w)) = requests.sent w).
Proof.
  split.
  - apply init_missing_key.
  - intros key -> Hkey. rewrite init_ok by exact Hkey. eauto.
Qed.

Lemma init_checks_api_key_witness :
  __init__ None (Some "http://localhost:8000/") 30 healthy_world
    = (Raise missing_key_error, healthy_world)
  /\ __init__ (Some "") None 30 healthy_world = (Raise missing_key_error, healthy_world)
  /\ exists c : ACISClient,
       __init__ (Some "acis_live_xxx") None 30 healthy_world = (Return c, healthy_world)
       /\ requests.sent (snd (__init__ (Some "acis_live_xxx") None 30 healthy_world))
          = requests.sent healthy_world.
Proof.
  split; [| split].
  - apply (init_checks_api_key None (Some "http://localhost:8000/") 30 healthy_world).
    left; reflexivity.
  - apply (init_checks_api_key (Some "") None 30 healthy_world).
    right; reflexivity.
  - apply (proj2 (init_checks_api_key (Some "acis_live_xxx") None 30 healthy_world)
             "acis_live_xxx"); [reflexivity | discriminate].
Defined.

(** ** Base URL normalization *)

(** C6, as stated, fails: for a base URL that ends in two slashes the
    stored URL keeps none of them, whereas removing exactly one would keep
    one; and an empty base URL is replaced by the default rather than kept. *)
Lemma base_url_two_slashes_counterexample :
  fst (__init__ (Some "k") (Some "http://localhost:8000//") 30 healthy_world)
    = Return (mkACISClient "k" "http://localhost:8000" 30
                (requests.mkSession (client_headers "k")))
  /\ strip_one_slash "http://localhost:8000//" = "http://localhost:8000/"
  /\ "http://localhost:8000" <> strip_one_slash "http://localhost:8000//"
  /\ fst (__init__ (Some "k") (Some "") 30 healthy_world)
    = Return (mkACISClient "k" "https://acis-trading.com/api/v1" 30
                (requests.mkSession (client_headers "k"))).
Proof. repeat split; try reflexivity. discriminate. Qed.

(** C6 (amended).  The stored base URL is the argument with all of its
    trailing slashes removed: it does not end in a slash and the argument
    is the stored URL followed by a run of slashes.  An argument that is
    non-empty and has no trailing slash is stored unchanged; when the
    argument is absent or empty the production default is stored. *)
Theorem base_url_normalized
    (key : string) (base_url : option string) (timeout : Z) (w : requests.World) :
  key <> "" ->
  exists c : ACISClient,
    __init__ (Some key) base_url timeout w = (Return c, w)
    /\ (base_url = None \/ base_url = Some "" -> client.base_url c = DEFAULT_BASE_URL)
    /\ (forall u : string, base_url = Some u -> u <> "" ->
          endswith_char (client.base_url c) "/" = false
          /\ (exists n : nat, u = client.base_url c +:+ str_repeat "/" n)
          /\ (endswith_char u "/" = false -> client.base_url c = u)).
Proof.
  intros Hkey. eexists. split; [apply init_ok, Hkey |]. simpl. split.
  - intros [-> | ->]; reflexivity.
  - intros u -> Hu. rewrite str_or_nonempty by exact Hu.
    split; [apply rstrip_endswith |].
    split; [apply rstrip_decompose | apply rstrip_no_trailing].
Qed.

Lemma base_url_normalized_witness :
  exists c : ACISClient,
    __init__ (Some "k") (Some "http://localhost:8000//") 30 healthy_world
      = (Return c, healthy_world)
    /\ (Some "http://localhost:8000//" = None \/ Some "http://localhost:8000//" = Some "" ->
        client.base_url c = DEFAULT_BASE_URL)
    /\ (forall u : string, Some "http://localhost:8000//" = Some u -> u <> "" ->
          endswith_char (client.base_url c) "/" = false
          /\ (exists n : nat, u = client.base_url c +:+ str_repeat "/" n)
          /\ (endswith_char u "/" = false -> client.base_url c = u)).
Proof.
  apply (base_url_normalized "k" (Some "http://localhost:8000//") 30 healthy_world).
  discriminate.
Defined.

(** C7, as stated, fails at the empty string, which does not end in a
    slash: an empty base URL is replaced by the production default, while
    ["/"] is kept and stripped to the empty string, so the two clients
    build different URLs for the same path. *)
Lemma trailing_slash_empty_counterexample :
  endswith_char "" "/" = false
  /\ exists c1 c2 : ACISClient,
       __init__ (Some "k") (Some "") 30 healthy_world = (Return c1, healthy_world)
       /\ __init__ (Some "k") (Some ("" +:+ "/")) 30 healthy_world = (Return c2, healthy_world)
       /\ request_url c1 "/health" = "https://acis-trading.com/api/v1/health"
       /\ request_url c2 "/health" = "/health".
Proof.
  split; [reflexivity |].
  eexists; eexists.
  split; [apply init_ok; discriminate |].
  split; [apply init_ok; discriminate |].
  split; reflexivity.
Qed.

(** C7 (amended).  For every non-empty base URL [u] that does not end in a
    slash, the client built from [u] and the client built from [u + "/"]
    build the same URL, [u] followed by the path, for every request path,
    and hand the session the same request. *)
Theorem trailing_slash_same_url
    (key u : string) (timeout : Z) (w : requests.World) :
  key <> "" -> u <> "" -> endswith_char u "/" = false ->
  exists c1 c2 : ACISClient,
    __init__ (Some key) (Some u) timeout w = (Return c1, w)
    /\ __init__ (Some key) (Some (u +:+ "/")) timeout w = (Return c2, w)
    /\ forall (method endpoint : string) (params json : option (gmap string value)),
         request_url c1 endpoint = u +:+ endpoint
         /\ request_url c2 endpoint = u +:+ endpoint
         /\ session_call c1 method endpoint params json
            = session_call c2 method endpoint params json.
Proof.
  intros Hkey Hu Hend.
  eexists; eexists.
  split; [apply init_ok, Hkey |].
  split; [apply init_ok, Hkey |].
  intros method endpoint params json.
  unfold session_call, request_url.
  cbn [client.base_url client.timeout client._session requests.headers].
  rewrite (str_or_nonempty (u +:+ "/")) by apply app_slash_nonempty.
  rewrite str_or_nonempty by exact Hu.
  rewrite rstrip_app_slash, rstrip_no_trailing by exact Hend.
  auto.
Qed.

Lemma trailing_slash_same_url_witness :
  exists c1 c2 : ACISClient,
    __init__ (Some "k") (Some "http://localhost:8000") 30 healthy_world
      = (Return c1, healthy_world)
    /\ __init__ (Some "k") (Some ("http://localhost:8000" +:+ "/")) 30 healthy_world
      = (Return c2, healthy_world)
    /\ forall (method endpoint : string) (params json : option (gmap string value)),
         request_url c1 endpoint = "http://localhost:8000" +:+ endpoint
         /\ request_url c2 endpoint = "http://localhost:8000" +:+ endpoint
         /\ session_call c1 method endpoint params json
            = session_call c2 method endpoint params json.
Proof.
  apply (trailing_slash_same_url "k" "http://localhost:8000" 30 healthy_world).
  - discriminate.
  - discriminate.
  - reflexivity.
Defined.

(** ** The response classifier *)

Section Classifier.

Variable r : requests.Response.

(** A decoder that gives up on the nesting depth is not caught. *)
Lemma handle_response_recursion :
  requests.json r = requests.RecursionError -> _handle_response r = Raise RecursionError.
Proof. intros H. unfold _handle_response. now rewrite H. Qed.

Lemma handle_response_200 (v : value) :
  requests.status_code r = 200 -> decoded_body r = Some v ->
  _handle_response r = Return v.
Proof.
  intros Hs Hd. unfold _handle_response, decoded_body, synthesized_body in *.
  destruct (requests.json r); injection Hd as <- || discriminate Hd; now rewrite Hs.
Qed.

(** Past the decoding, the classifier only looks at the status and at
    what was decoded. *)
Lemma handle_response_decoded (v : value) :
  decoded_body r = Some v ->
  _handle_response r
    = _handle_response
        (requests.mkResponse (requests.status_code r) (requests.text r) (requests.Decoded v)).
Proof.
  intros Hd. unfold _handle_response, decoded_body, synthesized_body in *.
  cbn [requests.json requests.status_code requests.text].
  destruct (requests.json r); injection Hd as <- || discriminate Hd; reflexivity.
Qed.

(** On an object body every non-200 status follows the decision table. *)
Lemma handle_response_dict (d : gmap string value) :
  requests.status_code r <> 200 ->
  decoded_body r = Some (PyDict d) ->
  _handle_response r = Raise (table_error (requests.status_code r) d).
Proof.
  intros Hs Hd. apply Z.eqb_neq in Hs.
  rewrite (handle_response_decoded _ Hd).
  unfold _handle_response. cbn [requests.json requests.status_code requests.text].
  cbn [mbind result_mbind result_bind]. rewrite Hs.
  unfold table_error, table_class, table_default_message.
  destruct (requests.status_code r =? 401) eqn:E401.
  { apply Z.eqb_eq in E401. rewrite E401. reflexivity. }
  destruct (requests.status_code r =? 429) eqn:E429.
  { apply Z.eqb_eq in E429. rewrite E429. reflexivity. }
  destruct (requests.status_code r =? 422) eqn:E422.
  { apply Z.eqb_eq in E422. rewrite E422. reflexivity. }
  reflexivity.
Qed.

(** A decoded body that is not an object has no [get]. *)
Lemma handle_response_not_dict (v : value) :
  requests.status_code r <> 200 ->
  requests.json r = requests.Decoded v ->
  (forall d, v <> PyDict d) ->
  _handle_response r = Raise (AttributeError (type_name v) "get").
Proof.
  intros Hs Hj Hv. apply Z.eqb_neq in Hs.
  unfold _handle_response. rewrite Hj. cbn [mbind result_mbind result_bind]. rewrite Hs.
  destruct v; try (now repeat case (_ =? _)).
  now destruct (Hv d).
Qed.

(** The four ways a classification ends. *)
Lemma handle_response_cases :
  (requests.json r = requests.RecursionError /\ _handle_response r = Raise RecursionError)
  \/ (requests.status_code r = 200
      /\ exists v, decoded_body r = Some v /\ _handle_response r = Return v)
  \/ (requests.status_code r <> 200
      /\ exists d, decoded_body r = Some (PyDict d)
         /\ _handle_response r = Raise (table_error (requests.status_code r) d))
  \/ (requests.status_code r <> 200
      /\ exists v, requests.json r = requests.Decoded v
         /\ (forall d, v <> PyDict d)
         /\ _handle_response r = Raise (AttributeError (type_name v) "get")).
Proof.
  destruct (decoded_body r) as [v |] eqn:Hd.
  - right.
    destruct (Z.eq_dec (requests.status_code r) 200) as [Hs | Hs].
    + left. split; [exact Hs |]. exists v. split; [reflexivity |].
      now apply handle_response_200.
    + right.
      assert (Hv : (exists d, v = PyDict d) \/ forall d, v <> PyDict d)
        by (destruct v; eauto; right; discriminate).
      destruct Hv as [[d ->] | Hv].
      * left. split; [exact Hs |]. exists d. split; [reflexivity |].
        now apply handle_response_dict.
      * right. split; [exact Hs |]. exists v.
        assert (Hj : requests.json r = requests.Decoded v).
        { unfold decoded_body in Hd. destruct (requests.json r) as [x | |].
          - now injection Hd as ->.
          - injection Hd as <-. now destruct (Hv (synthesized_body r)).
          - discriminate Hd. }
        split; [exact Hj |]. split; [exact Hv |].
        now apply handle_response_not_dict.
  - left.
    assert (Hj : requests.json r = requests.RecursionError)
      by (unfold decoded_body in Hd; destruct (requests.json r); congruence).
    split; [exact Hj | now apply handle_response_recursion].
Qed.

(** A value is returned exactly for status 200 with a decoder that did not
    give up. *)
Lemma handle_response_returns_iff :
  (exists v, _handle_response r = Return v)
  <-> requests.status_code r = 200 /\ requests.json r <> requests.RecursionError.
Proof.
  split.
  - intros [v Hv].
    destruct handle_response_cases
      as [[_ Hr] | [(Hs & x & Hd & _) | [(_ & d & _ & Hr) | (_ & x & _ & _ & Hr)]]];
      try (rewrite Hr in Hv; discriminate Hv).
    split; [exact Hs |]. intros Hj. unfold decoded_body in Hd. rewrite Hj in Hd.
    discriminate Hd.
  - intros [Hs Hj].
    destruct handle_response_cases
      as [[Hj' _] | [(_ & x & _ & Hr) | [(Hs' & _) | (Hs' & _)]]];
      try contradiction.
    eauto.
Qed.

End Classifier.

(** C1.  The decision table holds on every body that decodes to a JSON
    object ([handle_response_200], [handle_response_dict]), but not on every
    JSON-decodable body: a status-500 response whose body is the JSON array
    [[]] raises [AttributeError], not the Generic API error with message
    "API error: 500", status code 500 and the decoded body as response. *)
Theorem handle_response_array_body_500 :
  _handle_response (requests.mkResponse 500 "[]" (requests.Decoded (PyList [])))
    = Raise (AttributeError "list" "get")
  /\ _handle_response (requests.mkResponse 500 "{}" (requests.Decoded (PyDict ∅)))
    = Raise (ACIS (APIError (PyStr "API error: 500") (PyInt 500) (PyDict ∅))).
Proof. split; reflexivity. Qed.

(** C10.  A value is returned only for status 200
    ([handle_response_returns_iff]), but what a non-200 status raises is
    not always one of the typed errors: a status-201 response whose body is
    the JSON value [null] raises [AttributeError]. *)
Theorem handle_response_null_body_201 :
  _handle_response (requests.mkResponse 201 "null" (requests.Decoded PyNone))
    = Raise (AttributeError "NoneType" "get")
  /\ forall e : ACISError,
       _handle_response (requests.mkResponse 201 "null" (requests.Decoded PyNone))
         <> Raise (ACIS e).
Proof. split; [reflexivity | discriminate]. Qed.

(** C2, as stated, fails: text that opens a hundred thousand arrays and
    closes none is not valid JSON, yet the decoder gives up with a
    [RecursionError] before it finds that out.  Only [ValueError] is
    caught, so the classifier fails with the decoder's error instead of
    raising the Authentication error with the synthesized body. *)
Lemma deeply_nested_body_counterexample :
  _handle_response
    (requests.mkResponse 401 (str_repeat "[" (Z.to_nat 100000)) requests.RecursionError)
    = Raise RecursionError
  /\ forall e : ACISError,
       _handle_response
         (requests.mkResponse 401 (str_repeat "[" (Z.to_nat 100000)) requests.RecursionError)
         <> Raise (ACIS e).
Proof.
  assert (H : _handle_response
                (requests.mkResponse 401 (str_repeat "[" (Z.to_nat 100000))
                   requests.RecursionError)
              = Raise RecursionError)
    by (now apply handle_response_recursion).
  split; [exact H |]. intros e He. rewrite H in He. discriminate He.
Qed.

(** C2 (amended).  A response whose body the decoder rejects with a
    [ValueError] never fails in decoding: the classifier behaves exactly
    as on the same response carrying the decoded body [{"detail": text}].
    Status 200 returns that mapping; any other status raises the error of
    the decision table, with the raw text as message (there is no reset
    hint), the status as status code and the synthesized mapping as
    response. *)
Theorem non_json_body_classified (r : requests.Response) :
  requests.json r = requests.ValueError ->
  _handle_response r
    = _handle_response
        (requests.mkResponse (requests.status_code r) (requests.text r)
           (requests.Decoded (PyDict (synthesized_body r))))
  /\ _handle_response r
    = (if requests.status_code r =? 200
       then Return (PyDict (synthesized_body r))
       else Raise (ACIS (mkACISError
                           (table_class (requests.status_code r) (synthesized_body r))
                           (PyStr (requests.text r))
                           (PyInt (requests.status_code r))
                           (PyDict (synthesized_body r)))))
  /\ dict_get (synthesized_body r) "reset_at" PyNone = PyNone.
Proof.
  intros Hj.
  assert (Hd : decoded_body r = Some (PyDict (synthesized_body r)))
    by (unfold decoded_body; now rewrite Hj).
  split; [| split].
  - now apply handle_response_decoded.
  - destruct (requests.status_code r =? 200) eqn:Hs.
    + apply Z.eqb_eq in Hs. now apply handle_response_200.
    + apply Z.eqb_neq in Hs. now rewrite (handle_response_dict r _ Hs Hd).
  - reflexivity.
Qed.

Lemma non_json_body_classified_witness :
  _handle_response (requests.mkResponse 401 "Unauthorized" requests.ValueError)
    = Raise (ACIS (AuthenticationError (PyStr "Unauthorized") (PyInt 401)
                     (PyDict {[ "detail" := PyStr "Unauthorized" ]}))).
Proof.
  exact (proj1 (proj2 (non_json_body_classified
                         (requests.mkResponse 401 "Unauthorized" requests.ValueError)
                         eq_refl))).
Defined.

(** C9.  For a non-200 response whose decoded body is an object with a
    [detail] entry bound to a falsy value ([None], the empty string, ...),
    the error's message is that value itself.  The documented default is
    the message when the body has no [detail] entry, and only then (unless
    the entry itself holds the default text). *)
Theorem falsy_detail_is_message (r : requests.Response) (d : gmap string value) :
  requests.status_code r <> 200 ->
  requests.json r = requests.Decoded (PyDict d) ->
  exists e : ACISError,
    _handle_response r = Raise (ACIS e)
    /\ (forall v : value, d !! "detail" = Some v -> truthy v = false -> message e = v)
    /\ (d !! "detail" = None -> message e = table_default_message (requests.status_code r))
    /\ (message e = table_default_message (requests.status_code r) ->
        d !! "detail" = None
        \/ d !! "detail" = Some (table_default_message (requests.status_code r))).
Proof.
  intros Hs Hj.
  assert (Hd : decoded_body r = Some (PyDict d)) by (unfold decoded_body; now rewrite Hj).
  eexists. split; [apply (handle_response_dict r d Hs Hd) |].
  cbn [message]. unfold dict_get.
  destruct (d !! "detail") as [v0|]; unfold default, from_option, id.
  - split; [| split].
    + intros v [= ->] _. reflexivity.
    + discriminate.
    + intros ->. now right.
  - split; [| split].
    + discriminate.
    + reflexivity.
    + now left.
Qed.

Lemma falsy_detail_is_message_witness :
  exists e : ACISError,
    _handle_response
      (requests.mkResponse 401 "{detail: null}"
         (requests.Decoded (PyDict {[ "detail" := PyNone ]})))
      = Raise (ACIS e)
    /\ message e = PyNone.
Proof.
  destruct (falsy_detail_is_message
              (requests.mkResponse 401 "{detail: null}"
                 (requests.Decoded (PyDict {[ "detail" := PyNone ]})))
              {[ "detail" := PyNone ]})
    as (e & He & Hfalsy & _).
  - discriminate.
  - reflexivity.
  - exists e. split; [exact He |]. apply Hfalsy; reflexivity.
Defined.

(** ** The transport adapter *)

Section Transport.

Variables (self : ACISClient) (method endpoint : string).
Variables (params json : option (gmap string value)) (w : requests.World).

Let rq : requests.Request := session_call self method endpoint params json.

(** One call of [_request], run on [w]. *)
Lemma request_run :
  _request self method endpoint params json w =
    match requests.network w (requests.sent w) rq with
    | requests.Respond r => (_handle_response r, after_send w rq)
    | requests.Fail e =>
        (Raise (if requests.is_Timeout e then timeout_error
                else if requests.is_ConnectionError e then connection_error
                else Requests e),
         after_send w rq)
    end.
Proof.
  unfold _request, mbind, M_mbind, M_bind, try_except, Session_request, lift.
  subst rq. unfold session_call, after_send.
  destruct (requests.network w (requests.sent w) _) as [r | e].
  - reflexivity.
  - cbn [isinstance_Timeout isinstance_ConnectionError].
    destruct (requests.is_Timeout e); [reflexivity |].
    destruct (requests.is_ConnectionError e); reflexivity.
Qed.

(** The session is called exactly once, whatever the outcome. *)
Lemma request_sent :
  requests.sent (snd (_request self method endpoint params json w))
    = (requests.sent w ++ [rq])%list.
Proof.
  rewrite request_run.
  destruct (requests.network w (requests.sent w) rq); reflexivity.
Qed.

End Transport.

(** C3.  Whenever the underlying HTTP call of [_request] fails with an
    exception [e]: if [e] is a [Timeout], the caller gets the Generic API
    error with message "Request timed out", status code 408 and no response
    body; otherwise, if [e] is a [ConnectionError], the Generic API error
    with message "Connection failed", status code 503 and no response body.
    The timeout clause is tried first, so an exception that is both a
    [Timeout] and a [ConnectionError] yields 408, and the two outcomes
    exclude each other. *)
Theorem transport_failures
    (self : ACISClient) (method endpoint : string)
    (params json : option (gmap string value)) (w : requests.World)
    (e : requests.RequestException) :
  requests.network w (requests.sent w) (session_call self method endpoint params json)
    = requests.Fail e ->
  (requests.is_Timeout e = true ->
     fst (_request self method endpoint params json w)
       = Raise (ACIS (APIError (PyStr "Request timed out") (PyInt 408) PyNone)))
  /\ (requests.is_Timeout e = false -> requests.is_ConnectionError e = true ->
     fst (_request self method endpoint params json w)
       = Raise (ACIS (APIError (PyStr "Connection failed") (PyInt 503) PyNone)))
  /\ ~ (fst (_request self method endpoint params json w) = Raise timeout_error
        /\ fst (_request self method endpoint params json w) = Raise connection_error).
Proof.
  intros Hnet. rewrite request_run, Hnet. cbn [fst].
  split; [| split].
  - now intros ->.
  - now intros -> ->.
  - intros [H1 H2]. rewrite H1 in H2. discriminate H2.
Qed.

Lemma transport_failures_witness :
  fst (health_check
         (mkACISClient "k" "http://localhost:8000" 30 (requests.mkSession (client_headers "k")))
         (constant_world (requests.Fail requests.ConnectTimeout)))
    = Raise (ACIS (APIError (PyStr "Request timed out") (PyInt 408) PyNone))
  /\ requests.is_ConnectionError requests.ConnectTimeout = true.
Proof.
  split; [| reflexivity].
  apply (proj1 (transport_failures
                  (mkACISClient "k" "http://localhost:8000" 30
                     (requests.mkSession (client_headers "k")))
                  "GET" "/health" None None
                  (constant_world (requests.Fail requests.ConnectTimeout))
                  requests.ConnectTimeout eq_refl)).
  reflexivity.
Defined.

(** ** Request bodies *)

(** C5.  [generate_portfolio] issues one POST whose JSON body has exactly
    the keys [strategy], [max_positions] and [risk_tolerance], bound to the
    arguments, plus [investment_amount], bound to the argument, exactly
    when that argument is truthy.  An amount of [0] (or [0.0]) gives the
    body of a call that leaves the amount out; a nonzero integer amount is
    in the body at its value. *)
Theorem generate_portfolio_body
    (self : ACISClient) (strategy max_positions risk_tolerance investment_amount : value)
    (w : requests.World) :
  requests.sent
    (snd (generate_portfolio self strategy max_positions risk_tolerance investment_amount w))
    = (requests.sent w ++
       [portfolio_post self
          (generate_portfolio_payload
             strategy max_positions risk_tolerance investment_amount)])%list
  /\ dom (generate_portfolio_payload strategy max_positions risk_tolerance investment_amount)
     = ({[ "strategy"; "max_positions"; "risk_tolerance" ]} : gset string)
         ∪ (if truthy investment_amount then {[ "investment_amount" ]} else ∅)
  /\ generate_portfolio_payload strategy max_positions risk_tolerance investment_amount
       !! "strategy" = Some strategy
  /\ generate_portfolio_payload strategy max_positions risk_tolerance investment_amount
       !! "max_positions" = Some max_positions
  /\ generate_portfolio_payload strategy max_positions risk_tolerance investment_amount
       !! "risk_tolerance" = Some risk_tolerance
  /\ generate_portfolio_payload strategy max_positions risk_tolerance investment_amount
       !! "investment_amount"
     = (if truthy investment_amount then Some investment_amount else None)
  /\ generate_portfolio_payload strategy max_positions risk_tolerance (PyInt 0)
     = generate_portfolio_payload strategy max_positions risk_tolerance
         default_investment_amount
  /\ generate_portfolio_payload strategy max_positions risk_tolerance (PyFloat 0%float)
     = generate_portfolio_payload strategy max_positions risk_tolerance
         default_investment_amount
  /\ forall n : Z,
       generate_portfolio_payload strategy max_positions risk_tolerance (PyInt n)
         !! "investment_amount"
       = (if n =? 0 then None else Some (PyInt n)).
Proof.
  split; [apply request_sent |].
  unfold generate_portfolio_payload.
  split.
  { destruct (truthy investment_amount);
      rewrite ?dom_insert_L, dom_empty_L; set_solver. }
  repeat split.
  - now destruct (truthy investment_amount).
  - now destruct (truthy investment_amount).
  - now destruct (truthy investment_amount).
  - now destruct (truthy investment_amount).
  - intros n. cbn [truthy]. now destruct (n =? 0).
Qed.

(** C8.  Each convenience wrapper is the same computation as
    [generate_portfolio] with its strategy fixed, the given [max_positions],
    risk tolerance "moderate" and no investment amount: on every world the
    two return the same value or raise the same error and leave the same
    log of requests, whose last entry carries the three-key body. *)
Theorem wrappers_are_generate_portfolio
    (self : ACISClient) (max_positions : value) (w : requests.World) :
  (get_value_portfolio self max_positions w
     = generate_portfolio self (PyStr "value") max_positions (PyStr "moderate") PyNone w
   /\ get_growth_portfolio self max_positions w
     = generate_portfolio self (PyStr "growth") max_positions (PyStr "moderate") PyNone w
   /\ get_dividend_portfolio self max_positions w
     = generate_portfolio self (PyStr "dividend") max_positions (PyStr "moderate") PyNone w
   /\ get_adaptive_portfolio self max_positions w
     = generate_portfolio self (PyStr "adaptive") max_positions (PyStr "moderate") PyNone w)
  /\ (requests.sent (snd (get_value_portfolio self max_positions w))
        = (requests.sent w ++ [portfolio_post self (wrapper_body "value" max_positions)])%list
      /\ requests.sent (snd (get_growth_portfolio self max_positions w))
        = (requests.sent w ++ [portfolio_post self (wrapper_body "growth" max_positions)])%list
      /\ requests.sent (snd (get_dividend_portfolio self max_positions w))
        = (requests.sent w ++ [portfolio_post self (wrapper_body "dividend" max_positions)])%list
      /\ requests.sent (snd (get_adaptive_portfolio self max_positions w))
        = (requests.sent w ++ [portfolio_post self (wrapper_body "adaptive" max_positions)])%list).
Proof.
  split; [repeat split |].
  unfold get_value_portfolio, get_growth_portfolio, get_dividend_portfolio,
    get_adaptive_portfolio, generate_portfolio, portfolio_post.
  rewrite !request_sent. repeat split; reflexivity.
Qed.

(** ** Further properties of the classifier and the endpoints *)

(** On a body that decodes to a JSON object the classifier follows the
    decision table for every status: 200 returns the object, any other
    status raises the table's error, whose message is the [detail] entry
    (the default without one), with the status and the object attached. *)
Theorem decision_table_on_objects (status : Z) (text : string) (d : gmap string value) :
  _handle_response (requests.mkResponse status text (requests.Decoded (PyDict d)))
    = (if status =? 200 then Return (PyDict d) else Raise (table_error status d)).
Proof.
  destruct (status =? 200) eqn:Hs.
  - apply Z.eqb_eq in Hs. now apply handle_response_200.
  - apply Z.eqb_neq in Hs. now apply handle_response_dict.
Qed.

(** Every endpoint method calls [Session.request] exactly once, whatever
    the outcome, with the method and the path of its endpoint: the client
    adds no retry or second call of its own.  (How many requests the
    library makes of one call, when it follows a redirect, is not counted
    here.) *)
Theorem endpoints_call_session_once
    (self : ACISClient) (strategy : string) (days : value) (w : requests.World) :
  requests.sent (snd (get_usage self w))
    = (requests.sent w ++ [session_call self "GET" "/usage" None None])%list
  /\ requests.sent (snd (health_check self w))
    = (requests.sent w ++ [session_call self "GET" "/health" None None])%list
  /\ requests.sent (snd (get_risk_levels self w))
    = (requests.sent w ++ [session_call self "GET" "/risk-levels" None None])%list
  /\ requests.sent (snd (get_my_portfolios self w))
    = (requests.sent w ++ [session_call self "GET" "/user/portfolios" None None])%list
  /\ requests.sent (snd (get_portfolio self strategy w))
    = (requests.sent w ++
       [session_call self "GET" ("/user/portfolios/" +:+ strategy) None None])%list
  /\ requests.sent (snd (get_portfolio_history self strategy days w))
    = (requests.sent w ++
       [session_call self "GET" ("/user/portfolios/" +:+ strategy +:+ "/history")
          (Some {[ "days" := days ]}) None])%list.
Proof. repeat split; apply request_sent. Qed.

(** End to end: a server answering 200 with a health mapping makes
    [health_check] return that mapping unchanged, and a server answering
    429 with a [detail] and a [reset_at] makes [get_rebalance_suggestions]
    raise the RateLimit error carrying both. *)
Theorem end_to_end_scenarios
    (self : ACISClient) (w : requests.World)
    (positions strategy market_cap threshold : value) (health : gmap string value) (text : string) :
  fst (health_check self
         (requests.mkWorld (requests.default_headers w)
            (fun _ _ =>
               requests.Respond (requests.mkResponse 200 text (requests.Decoded (PyDict health))))
            (requests.sent w)))
    = Return (PyDict health)
  /\ fst (get_rebalance_suggestions self positions strategy market_cap threshold
         (requests.mkWorld (requests.default_headers w)
            (fun _ _ =>
               requests.Respond
                 (requests.mkResponse 429 text
                    (requests.Decoded (PyDict (<["detail" := PyStr "too many requests"]>
                                     (<["reset_at" := PyStr "2024-01-01T00:00:00Z"]> ∅))))))
            (requests.sent w)))
    = Raise (ACIS (RateLimitError (PyStr "too many requests") (PyStr "2024-01-01T00:00:00Z")
                     (PyInt 429)
                     (PyDict (<["detail" := PyStr "too many requests"]>
                                (<["reset_at" := PyStr "2024-01-01T00:00:00Z"]> ∅))))).
Proof.
  split.
  - unfold health_check. now rewrite request_run.
  - unfold get_rebalance_suggestions. now rewrite request_run.
Qed.

(** ** What a caller can conclude from an outcome *)

(** A typed error out of the classifier is the table's error for an object
    body. *)
Lemma handle_response_raise_inv (r : requests.Response) (e : ACISError) :
  _handle_response r = Raise (ACIS e) ->
  requests.status_code r <> 200
  /\ exists d : gmap string value,
       decoded_body r = Some (PyDict d) /\ ACIS e = table_error (requests.status_code r) d.
Proof.
  intros H.
  destruct (handle_response_cases r)
    as [[_ Hr] | [(_ & x & _ & Hr) | [(Hs & d & Hd & Hr) | (_ & x & _ & _ & Hr)]]];
    rewrite Hr in H; try discriminate H.
  split; [exact Hs |]. exists d. split; [exact Hd |]. now injection H as <-.
Qed.

Lemma handle_response_return_inv (r : requests.Response) (v : value) :
  _handle_response r = Return v ->
  requests.status_code r = 200 /\ decoded_body r = Some v.
Proof.
  intros H.
  destruct (handle_response_cases r)
    as [[_ Hr] | [(Hs & x & Hd & Hr) | [(_ & d & _ & Hr) | (_ & x & _ & _ & Hr)]]];
    rewrite Hr in H; try discriminate H.
  injection H as <-. now split.
Qed.

(** When the server answers, the outcome of [_request] is the classifier's
    verdict on the answer and nothing else, and the request is logged. *)
Theorem response_is_classified
    (self : ACISClient) (method endpoint : string)
    (params json : option (gmap string value)) (w : requests.World)
    (r : requests.Response) :
  requests.network w (requests.sent w) (session_call self method endpoint params json)
    = requests.Respond r ->
  _request self method endpoint params json w
    = (_handle_response r, after_send w (session_call self method endpoint params json)).
Proof. intros H. now rewrite request_run, H. Qed.

Lemma response_is_classified_witness :
  _request (mkACISClient "k" "http://localhost:8000" 30 (requests.mkSession (client_headers "k")))
      "GET" "/health" None None healthy_world
    = (Return (PyDict ∅),
       after_send healthy_world
         (session_call
            (mkACISClient "k" "http://localhost:8000" 30
               (requests.mkSession (client_headers "k")))
            "GET" "/health" None None)).
Proof.
  exact (response_is_classified
           (mkACISClient "k" "http://localhost:8000" 30
              (requests.mkSession (client_headers "k")))
           "GET" "/health" None None healthy_world
           (requests.mkResponse 200 "{}" (requests.Decoded (PyDict ∅))) eq_refl).
Defined.

(** A transport failure that is neither a [Timeout] nor a
    [ConnectionError] is not translated: it reaches the caller as it was
    raised, after the one request was issued. *)
Theorem other_transport_failures_propagate
    (self : ACISClient) (method endpoint : string)
    (params json : option (gmap string value)) (w : requests.World)
    (e : requests.RequestException) :
  requests.network w (requests.sent w) (session_call self method endpoint params json)
    = requests.Fail e ->
  requests.is_Timeout e = false ->
  requests.is_ConnectionError e = false ->
  _request self method endpoint params json w
    = (Raise (Requests e), after_send w (session_call self method endpoint params json)).
Proof. intros H Ht Hc. now rewrite request_run, H, Ht, Hc. Qed.

Lemma other_transport_failures_propagate_witness :
  fst (get_usage
         (mkACISClient "k" "http://localhost:8000" 30 (requests.mkSession (client_headers "k")))
         (constant_world (requests.Fail (requests.OtherError "TooManyRedirects"))))
    = Raise (Requests (requests.OtherError "TooManyRedirects")).
Proof.
  exact (f_equal fst
           (other_transport_failures_propagate
              (mkACISClient "k" "http://localhost:8000" 30
                 (requests.mkSession (client_headers "k")))
              "GET" "/usage" None None
              (constant_world (requests.Fail (requests.OtherError "TooManyRedirects")))
              (requests.OtherError "TooManyRedirects") eq_refl eq_refl eq_refl)).
Defined.

(** [_request] returns a value only when the server answered with status
    200 and could be decoded, and the value is then the decoded body of
    that answer. *)
Theorem request_returns_only_on_200
    (self : ACISClient) (method endpoint : string)
    (params json : option (gmap string value)) (w : requests.World) (v : value) :
  fst (_request self method endpoint params json w) = Return v ->
  exists r : requests.Response,
    requests.network w (requests.sent w) (session_call self method endpoint params json)
      = requests.Respond r
    /\ requests.status_code r = 200
    /\ decoded_body r = Some v.
Proof.
  rewrite request_run.
  destruct (requests.network w (requests.sent w) _) as [r | e]; cbn [fst]; intros H.
  - exists r. split; [reflexivity |]. now apply handle_response_return_inv.
  - discriminate H.
Qed.

Lemma request_returns_only_on_200_witness :
  exists r : requests.Response,
    requests.network healthy_world (requests.sent healthy_world)
      (session_call
         (mkACISClient "k" "http://localhost:8000" 30 (requests.mkSession (client_headers "k")))
         "GET" "/health" None None)
      = requests.Respond r
    /\ requests.status_code r = 200
    /\ decoded_body r = Some (PyDict ∅).
Proof.
  exact (request_returns_only_on_200
           (mkACISClient "k" "http://localhost:8000" 30
              (requests.mkSession (client_headers "k")))
           "GET" "/health" None None healthy_world (PyDict ∅) eq_refl).
Defined.

(** A typed error that reaches the caller of [_request] has no response
    attached exactly when the request never got an answer: the errors made
    up for a timeout (408) or a connection failure (503) carry [None], an
    error answered by the server, status 408 or 503 included, carries the
    decoded body. *)
Theorem error_without_response_iff_transport
    (self : ACISClient) (method endpoint : string)
    (params json : option (gmap string value)) (w : requests.World) (e : ACISError) :
  fst (_request self method endpoint params json w) = Raise (ACIS e) ->
  (response e = PyNone
   <-> exists x : requests.RequestException,
         requests.network w (requests.sent w) (session_call self method endpoint params json)
           = requests.Fail x).
Proof.
  rewrite request_run.
  destruct (requests.network w (requests.sent w) _) as [r | x]; cbn [fst]; intros H.
  - apply handle_response_raise_inv in H as (_ & d & _ & He).
    injection He as ->. cbn [response]. split.
    + discriminate.
    + intros [x Hx]. discriminate Hx.
  - split; [eauto |]. intros _.
    destruct (requests.is_Timeout x);
      [| destruct (requests.is_ConnectionError x)];
      try (injection H as <-; reflexivity).
    discriminate H.
Qed.

Lemma error_without_response_iff_transport_witness :
  response (APIError (PyStr "Connection failed") (PyInt 503) PyNone) = PyNone
  <-> exists x : requests.RequestException,
        requests.network (constant_world (requests.Fail requests.SSLError))
          (requests.sent (constant_world (requests.Fail requests.SSLError)))
          (session_call
             (mkACISClient "k" "http://localhost:8000" 30
                (requests.mkSession (client_headers "k")))
             "GET" "/health" None None)
          = requests.Fail x.
Proof.
  exact (error_without_response_iff_transport
           (mkACISClient "k" "http://localhost:8000" 30
              (requests.mkSession (client_headers "k")))
           "GET" "/health" None None
           (constant_world (requests.Fail requests.SSLError))
           (APIError (PyStr "Connection failed") (PyInt 503) PyNone) eq_refl).
Defined.

(** The class of a typed error raised by the classifier tells the status:
    Authentication means 401, RateLimit 429, Validation 422, and the
    Generic API error any other status.  The error always carries that
    status and the decoded body, which is an object. *)
Theorem raised_class_tells_status (r : requests.Response) (e : ACISError) :
  _handle_response r = Raise (ACIS e) ->
  status_code e = PyInt (requests.status_code r)
  /\ decoded_body r = Some (response e)
  /\ (exists d : gmap string value, response e = PyDict d)
  /\ (cls e = Authentication <-> requests.status_code r = 401)
  /\ ((exists reset_at : value, cls e = RateLimit reset_at) <-> requests.status_code r = 429)
  /\ (cls e = Validation <-> requests.status_code r = 422)
  /\ (cls e = API <->
      requests.status_code r <> 401 /\ requests.status_code r <> 429
      /\ requests.status_code r <> 422).
Proof.
  intros H. apply handle_response_raise_inv in H as (_ & d & Hd & He).
  injection He as ->. cbn [status_code response cls]. rewrite Hd.
  split; [reflexivity |]. split; [reflexivity |]. split; [eauto |].
  unfold table_class.
  destruct (Z.eqb_spec (requests.status_code r) 401) as [-> | H401].
  { repeat split; try discriminate; try lia; try (intros [? ?]; discriminate);
      intros (? & ? & ?); lia. }
  destruct (Z.eqb_spec (requests.status_code r) 429) as [-> | H429].
  { repeat split; try discriminate; try lia; eauto; intros (? & ? & ?); lia. }
  destruct (Z.eqb_spec (requests.status_code r) 422) as [-> | H422].
  { repeat split; try discriminate; try lia; try (intros [? ?]; discriminate);
      intros (? & ? & ?); lia. }
  repeat split; try discriminate; try lia; try (intros [? ?]; discriminate).
Qed.

Lemma raised_class_tells_status_witness :
  cls (ValidationError (PyStr "max_positions out of range") (PyInt 422)
         (PyDict {[ "detail" := PyStr "max_positions out of range" ]})) = Validation
  <-> 422 = 422.
Proof.
  exact (proj1 (proj2 (proj2 (proj2 (proj2 (proj2
           (raised_class_tells_status
              (requests.mkResponse 422 "{detail: ...}"
                 (requests.Decoded (PyDict {[ "detail" := PyStr "max_positions out of range" ]})))
              (ValidationError (PyStr "max_positions out of range") (PyInt 422)
                 (PyDict {[ "detail" := PyStr "max_positions out of range" ]}))
              eq_refl))))))).
Defined.

(** The classifier raises [AttributeError] exactly for a non-200 status
    with a body that decodes to something other than an object; the
    missing attribute is [get] on the decoded value's type.  It never
    raises a transport exception. *)
Theorem attribute_error_iff (r : requests.Response) :
  (forall t a : string,
     _handle_response r = Raise (AttributeError t a)
     <-> requests.status_code r <> 200 /\ a = "get"
         /\ exists v : value,
              requests.json r = requests.Decoded v /\ t = type_name v
              /\ forall d, v <> PyDict d)
  /\ forall x : requests.RequestException, _handle_response r <> Raise (Requests x).
Proof.
  split.
  - intros t a. split.
    + intros H.
      destruct (handle_response_cases r)
        as [[_ Hr] | [(_ & x & _ & Hr) | [(_ & d & _ & Hr) | (Hs & v & Hj & Hv & Hr)]]];
        rewrite Hr in H; try discriminate H.
      injection H as <- <-. eauto 10.
    + intros (Hs & -> & v & Hj & -> & Hv). now apply handle_response_not_dict.
  - intros x H.
    destruct (handle_response_cases r)
      as [[_ Hr] | [(_ & v & _ & Hr) | [(_ & d & _ & Hr) | (_ & v & _ & _ & Hr)]]];
      rewrite Hr in H; discriminate H.
Qed.

(** ** Clients built by the constructor *)

Lemma client_headers_other (key h : string) :
  h <> "Authorization" -> h <> "Content-Type" -> h <> "User-Agent" ->
  client_headers key !! h = None.
Proof.
  intros H1 H2 H3. unfold client_headers.
  now rewrite !lookup_insert_ne, lookup_empty by congruence.
Qed.

(** Every call a constructed client makes to [Session.request], on any
    endpoint and in any later state of the world, is made on a session
    whose headers hold the bearer authorization for its key, the JSON
    content type and the SDK's user agent (overriding the session's
    default for these three names) and every other default header
    unchanged, and passes the client's timeout and its base URL followed
    by the endpoint.  (What the library finally transmits, after a
    redirect or with a netrc file, is its own affair.) *)
Theorem constructed_client_calls
    (key : string) (base_url : option string) (timeout : Z) (w0 w : requests.World)
    (c : ACISClient) (method endpoint : string)
    (params json : option (gmap string value)) :
  fst (__init__ (Some key) base_url timeout w0) = Return c ->
  exists rq : requests.Request,
    requests.sent (snd (_request c method endpoint params json w))
      = (requests.sent w ++ [rq])%list
    /\ requests.req_headers rq !! "Authorization" = Some ("Bearer " +:+ key)
    /\ requests.req_headers rq !! "Content-Type" = Some "application/json"
    /\ requests.req_headers rq !! "User-Agent" = Some "acis-python-sdk/1.0.0"
    /\ (forall h : string,
          h <> "Authorization" -> h <> "Content-Type" -> h <> "User-Agent" ->
          requests.req_headers rq !! h = requests.default_headers w0 !! h)
    /\ requests.req_timeout rq = timeout
    /\ requests.req_url rq = client.base_url c +:+ endpoint
    /\ requests.req_method rq = method
    /\ requests.req_params rq = params
    /\ requests.req_json rq = json.
Proof.
  intros Hc.
  assert (Hkey : key <> "") by (intros ->; discriminate Hc).
  rewrite init_ok in Hc by exact Hkey. injection Hc as <-.
  eexists. split; [apply request_sent |].
  unfold session_call, request_url.
  cbn [requests.req_headers requests.req_timeout requests.req_url requests.req_method
       requests.req_params requests.req_json client.base_url client.timeout
       client._session requests.headers].
  repeat split.
  - now apply lookup_union_Some_l.
  - now apply lookup_union_Some_l.
  - now apply lookup_union_Some_l.
  - intros h H1 H2 H3. apply lookup_union_r. now apply client_headers_other.
Qed.

Lemma constructed_client_calls_witness :
  exists rq : requests.Request,
    requests.sent
      (snd (_request
              (mkACISClient "k" "http://localhost:8000" 10
                 (requests.mkSession (client_headers "k")))
              "GET" "/usage" None None healthy_world))
      = (requests.sent healthy_world ++ [rq])%list
    /\ requests.req_headers rq !! "Authorization" = Some ("Bearer " +:+ "k")
    /\ requests.req_headers rq !! "Content-Type" = Some "application/json"
    /\ requests.req_headers rq !! "User-Agent" = Some "acis-python-sdk/1.0.0"
    /\ (forall h : string,
          h <> "Authorization" -> h <> "Content-Type" -> h <> "User-Agent" ->
          requests.req_headers rq !! h = requests.default_headers healthy_world !! h)
    /\ requests.req_timeout rq = 10
    /\ requests.req_url rq = "http://localhost:8000" +:+ "/usage"
    /\ requests.req_method rq = "GET"
    /\ requests.req_params rq = None
    /\ requests.req_json rq = None.
Proof.
  exact (constructed_client_calls "k" (Some "http://localhost:8000/") 10
           healthy_world healthy_world
           (mkACISClient "k" "http://localhost:8000" 10
              (requests.mkSession (client_headers "k")))
           "GET" "/usage" None None eq_refl).
Defined.

Lemma rstrip_idempotent (s : string) : rstrip "/" (rstrip "/" s) = rstrip "/" s.
Proof. apply rstrip_no_trailing, rstrip_endswith. Qed.

(** Every client the constructor returns holds a non-empty key, the given
    timeout and a base URL that does not end in a slash.  Building a
    second client from the first one's key, base URL and timeout gives the
    same client again, unless that base URL is empty. *)
Theorem constructed_client_invariant
    (api_key base_url : option string) (timeout : Z) (w : requests.World) (c : ACISClient) :
  fst (__init__ api_key base_url timeout w) = Return c ->
  api_key = Some (client.api_key c)
  /\ client.api_key c <> ""
  /\ client.timeout c = timeout
  /\ endswith_char (client.base_url c) "/" = false
  /\ (client.base_url c <> "" ->
      __init__ (Some (client.api_key c)) (Some (client.base_url c)) (client.timeout c) w
        = (Return c, w)).
Proof.
  intros Hc.
  destruct api_key as [key |]; [| discriminate Hc].
  assert (Hkey : key <> "") by (intros ->; discriminate Hc).
  rewrite init_ok in Hc by exact Hkey. injection Hc as <-.
  cbn [client.api_key client.timeout client.base_url].
  split; [reflexivity |]. split; [exact Hkey |]. split; [reflexivity |].
  split; [apply rstrip_endswith |].
  intros Hne. rewrite init_ok by exact Hkey.
  now rewrite str_or_nonempty, rstrip_idempotent by exact Hne.
Qed.

Lemma constructed_client_invariant_witness :
  Some "k" = Some "k"
  /\ "k" <> ""
  /\ 30 = 30
  /\ endswith_char "http://localhost:8000" "/" = false
  /\ ("http://localhost:8000" <> "" ->
      __init__ (Some "k") (Some "http://localhost:8000") 30 healthy_world
        = (Return (mkACISClient "k" "http://localhost:8000" 30
                     (requests.mkSession (client_headers "k"))),
           healthy_world)).
Proof.
  exact (constructed_client_invariant (Some "k") (Some "http://localhost:8000///") 30
           healthy_world
           (mkACISClient "k" "http://localhost:8000" 30
              (requests.mkSession (client_headers "k")))
           eq_refl).
Defined.

Lemma rstrip_all_slashes (n : nat) : rstrip "/" (str_repeat "/" n) = "".
Proof.
  induction n as [| n IH]; [reflexivity |].
  cbn [str_repeat]. now rewrite rstrip_cons, IH.
Qed.

(** A base URL made only of slashes is not replaced by the default: it is
    stored as the empty string, so every request URL is the bare endpoint
    path. *)
Theorem all_slash_base_url
    (key : string) (n : nat) (timeout : Z) (w : requests.World) :
  key <> "" ->
  exists c : ACISClient,
    __init__ (Some key) (Some (str_repeat "/" (S n))) timeout w = (Return c, w)
    /\ client.base_url c = ""
    /\ forall endpoint : string, request_url c endpoint = endpoint.
Proof.
  intros Hkey. eexists. split; [apply init_ok, Hkey |].
  unfold request_url. cbn [client.base_url].
  rewrite str_or_nonempty by discriminate.
  rewrite rstrip_all_slashes. split; reflexivity.
Qed.

Lemma all_slash_base_url_witness :
  exists c : ACISClient,
    __init__ (Some "k") (Some (str_repeat "/" 2)) 30 healthy_world = (Return c, healthy_world)
    /\ client.base_url c = ""
    /\ forall endpoint : string, request_url c endpoint = endpoint.
Proof. apply (all_slash_base_url "k" 1 30 healthy_world). discriminate. Defined.

(** ** Remaining request shapes *)

(** [get_rebalance_suggestions] issues one POST to [/portfolios/rebalance]
    whose JSON body has exactly the keys [current_positions], [strategy],
    [market_cap] and [rebalance_threshold], each bound to the argument as
    it was passed: nothing is validated, converted or dropped (an empty or
    malformed position list goes out as it is). *)
Theorem rebalance_body
    (self : ACISClient) (current_positions strategy market_cap rebalance_threshold : value)
    (w : requests.World) :
  exists body : gmap string value,
    requests.sent
      (snd (get_rebalance_suggestions self current_positions strategy market_cap
              rebalance_threshold w))
      = (requests.sent w ++
         [session_call self "POST" "/portfolios/rebalance" None (Some body)])%list
    /\ dom body
       = ({[ "current_positions"; "strategy"; "market_cap"; "rebalance_threshold" ]}
          : gset string)
    /\ body !! "current_positions" = Some current_positions
    /\ body !! "strategy" = Some strategy
    /\ body !! "market_cap" = Some market_cap
    /\ body !! "rebalance_threshold" = Some rebalance_threshold.
Proof.
  eexists. split; [apply request_sent |].
  split; [rewrite !dom_insert_L, dom_empty_L; set_solver |].
  repeat split.
Qed.

(** The strategy name is put into the path as it is: a name that ends in
    [/history] makes [get_portfolio] address the URL that
    [get_portfolio_history] uses for the name without that suffix. *)
Theorem strategy_is_not_escaped
    (self : ACISClient) (strategy : string) (days : value) (w : requests.World) :
  exists rq1 rq2 : requests.Request,
    requests.sent (snd (get_portfolio self (strategy +:+ "/history") w))
      = (requests.sent w ++ [rq1])%list
    /\ requests.sent (snd (get_portfolio_history self strategy days w))
      = (requests.sent w ++ [rq2])%list
    /\ requests.req_method rq1 = requests.req_method rq2
    /\ requests.req_url rq1 = requests.req_url rq2
    /\ requests.req_url rq1
       = client.base_url self +:+ "/user/portfolios/" +:+ strategy +:+ "/history".
Proof.
  eexists; eexists.
  split; [apply request_sent |]. split; [apply request_sent |].
  repeat split.
Qed.

(** ** Position *)

Section PositionToDict.

Variable p : Position.t.

Lemma to_dict_ticker : Position.to_dict p !! "ticker" = Some (Position.ticker p).
Proof. reflexivity. Qed.

Lemma to_dict_weight : Position.to_dict p !! "weight" = Some (Position.weight p).
Proof. reflexivity. Qed.

Lemma to_dict_shares : Position.to_dict p !! "shares" = Some (Position.shares p).
Proof. reflexivity. Qed.

Lemma to_dict_price : Position.to_dict p !! "price" = Some (Position.price p).
Proof. reflexivity. Qed.

Lemma to_dict_sector : Position.to_dict p !! "sector" = Some (Position.sector p).
Proof. reflexivity. Qed.

Lemma to_dict_ml_score : Position.to_dict p !! "ml_score" = Some (Position.ml_score p).
Proof. reflexivity. Qed.

End PositionToDict.

(** [to_dict] always yields a mapping with exactly the six field names,
    each bound to the field's value.  An optional field that is [None] is
    present, bound to [None], not left out: reading it with a default
    never yields the default, and the mapping is never empty (it is
    truthy). *)
Theorem position_to_dict_keys (p : Position.t) (dflt : value) :
  dom (Position.to_dict p)
    = ({[ "ticker"; "weight"; "shares"; "price"; "sector"; "ml_score" ]} : gset string)
  /\ size (Position.to_dict p) = 6%nat
  /\ truthy (PyDict (Position.to_dict p)) = true
  /\ dict_get (Position.to_dict p) "ticker" dflt = Position.ticker p
  /\ dict_get (Position.to_dict p) "weight" dflt = Position.weight p
  /\ dict_get (Position.to_dict p) "shares" dflt = Position.shares p
  /\ dict_get (Position.to_dict p) "price" dflt = Position.price p
  /\ dict_get (Position.to_dict p) "sector" dflt = Position.sector p
  /\ dict_get (Position.to_dict p) "ml_score" dflt = Position.ml_score p
  /\ forall ticker weight : value,
       dict_get (Position.to_dict (Position.new ticker weight)) "sector" dflt = PyNone.
Proof.
  assert (Hdom : dom (Position.to_dict p)
            = ({[ "ticker"; "weight"; "shares"; "price"; "sector"; "ml_score" ]}
               : gset string))
    by (unfold Position.to_dict; rewrite !dom_insert_L, dom_empty_L; set_solver).
  assert (Hsize : size (Position.to_dict p) = 6%nat).
  { rewrite <- size_dom, Hdom. reflexivity. }
  split; [exact Hdom |]. split; [exact Hsize |].
  split; [cbn [truthy]; now rewrite Hsize |].
  unfold dict_get.
  rewrite to_dict_ticker, to_dict_weight, to_dict_shares, to_dict_price,
    to_dict_sector, to_dict_ml_score.
  repeat split.
Qed.

(** [to_dict] loses nothing: two positions with the same mapping are the
    same position. *)
Theorem position_to_dict_injective (p q : Position.t) :
  Position.to_dict p = Position.to_dict q -> p = q.
Proof.
  intros H.
  assert (H1 := f_equal (fun m => m !! "ticker") H).
  assert (H2 := f_equal (fun m => m !! "weight") H).
  assert (H3 := f_equal (fun m => m !! "shares") H).
  assert (H4 := f_equal (fun m => m !! "price") H).
  assert (H5 := f_equal (fun m => m !! "sector") H).
  assert (H6 := f_equal (fun m => m !! "ml_score") H).
  cbv beta in *.
  rewrite !to_dict_ticker in H1. rewrite !to_dict_weight in H2.
  rewrite !to_dict_shares in H3. rewrite !to_dict_price in H4.
  rewrite !to_dict_sector in H5. rewrite !to_dict_ml_score in H6.
  destruct p, q. cbn in *. congruence.
Qed.

Lemma position_to_dict_injective_witness :
  Position.new (PyStr "AAPL") (PyFloat 0.25)
    = Position.mk (PyStr "AAPL") (PyFloat 0.25) PyNone PyNone PyNone PyNone.
Proof.
  exact (position_to_dict_injective
           (Position.new (PyStr "AAPL") (PyFloat 0.25))
           (Position.mk (PyStr "AAPL") (PyFloat 0.25) PyNone PyNone PyNone PyNone)
           eq_refl).
Defined.
